(** * Notes router and user-exercise manager of the calendar application

    A shallow embedding of [app/routers/user_exercise.py] and
    [app/routers/notes/notes.py].  Python code that mutates the SQLAlchemy
    session and may raise is written in a state-and-exception monad over an
    explicit [Session] value: a raised exception keeps the mutations made
    before it, as in Python. *)

From stdpp Require Import base strings list gmap pretty.

Local Open Scope Z_scope.

(** ** Exceptions and the monad of session-threading code *)

(** [datetime] values are points on the integer time line (microseconds). *)
Abbreviation datetime := Z (only parsing).

Inductive Exception : Type :=
  | SQLAlchemyError
  | AttributeError (msg : string)
  | HTTPException (status_code : Z) (detail : string)
  | ValidationError (missing : list string)
  | RequestValidationError (missing : list string).

Inductive result (A : Type) : Type :=
  | Ok (a : A)
  | Raise (e : Exception).
Arguments Ok {A} a.
Arguments Raise {A} e.

Definition M (St A : Type) : Type := St → result A * St.

Definition ret {St A} (a : A) : M St A := λ s, (Ok a, s).

Definition raise {St A} (e : Exception) : M St A := λ s, (Raise e, s).

Definition bind {St A B} (m : M St A) (k : A → M St B) : M St B :=
  λ s, match m s with
       | (Ok a, s') => k a s'
       | (Raise e, s') => (Raise e, s')
       end.

(** [try: m  except SQLAlchemyError: h]: only that exception class is caught. *)
Definition try_except_SQLAlchemyError {St A} (m h : M St A) : M St A :=
  λ s, match m s with
       | (Raise SQLAlchemyError, s') => h s'
       | r => r
       end.

Declare Scope py_scope.
Delimit Scope py_scope with py.
Notation "x <- m ;; k" := (bind m (λ x, k))
  (at level 100, m at next level, k at level 200, right associativity)
  : py_scope.
Local Open Scope py_scope.

(** HTTP status constants of [fastapi.status] used by the routers. *)
Definition HTTP_302_FOUND : Z := 302.
Definition HTTP_404_NOT_FOUND : Z := 404.
Definition HTTP_422_UNPROCESSABLE_ENTITY : Z := 422.
Definition HTTP_500_INTERNAL_SERVER_ERROR : Z := 500.

(** The status the framework answers with when a handler raises: an
    [HTTPException] carries its own status, a rejected request body is 422,
    anything else is a server error. *)
Definition status_of_exception (e : Exception) : Z :=
  match e with
  | HTTPException c _ => c
  | RequestValidationError _ => HTTP_422_UNPROCESSABLE_ENTITY
  | _ => HTTP_500_INTERNAL_SERVER_ERROR
  end.

(** Python truth value of a list. *)
Definition truthy {A} (l : list A) : bool :=
  match l with [] => false | _ => true end.

(** [contains sub s]: [sub] occurs in [s]. *)
Definition contains (sub s : string) : Prop :=
  ∃ pre post : string, s = pre +:+ sub +:+ post.

(** ** Database models *)

(** Modelled from the spec: the ORM classes of [app.database.models] are not
    in src/.  Of a user the code reads [user.id]; a [UserExercise] has the
    fields of section 3: [id] "generated on insert", [user_id] and
    [start_date]. *)
Module User.
Record t : Type := mk { id : Z; username : string }.
#[global] Instance eq_dec : EqDecision t.
Proof. solve_decision. Defined.
End User.

Module UserExercise.
(** [id] is [None] until the row is inserted. *)
Record t : Type := mk { id : option Z; user_id : Z; start_date : datetime }.
#[global] Instance eq_dec : EqDecision t.
Proof. solve_decision. Defined.

Definition set_start_date (d : datetime) (r : t) : t :=
  {| id := id r; user_id := user_id r; start_date := d |}.
Definition set_id (i : Z) (r : t) : t :=
  {| id := Some i; user_id := user_id r; start_date := start_date r |}.
End UserExercise.

(** ** The user-exercise record manager, [app/routers/user_exercise.py] *)

Module user_exercise.

(** The part of the SQLAlchemy session the module touches: the rows of the
    [user_exercise] table in insertion order, the id the next inserted row
    gets, and the outcomes of the coming queries ([true]: the query raises
    [SQLAlchemyError]; an exhausted schedule means no more failures). *)
Record Session : Type := mkSession {
  rows : list UserExercise.t;
  next_id : Z;
  faults : list bool;
}.

Definition with_rows (l : list UserExercise.t) (s : Session) : Session :=
  {| rows := l; next_id := next_id s; faults := faults s |}.
Definition with_faults (f : list bool) (s : Session) : Session :=
  {| rows := rows s; next_id := next_id s; faults := f |}.

(** The next scheduled query outcome is consumed by the query. *)
Definition pop_fault (s : Session) : bool * Session :=
  (default false (head (faults s)), with_faults (tail (faults s)) s).

(** [session.query(UserExercise).filter_by(user_id=user_id)], evaluated. *)
Definition query_filter_by (user_id : Z) : M Session (list UserExercise.t) :=
  λ s,
    let '(fails, s') := pop_fault s in
    if fails then (Raise SQLAlchemyError, s')
    else (Ok (filter (λ r, UserExercise.user_id r = user_id) (rows s')), s').

(** Modelled from the spec: [save] of [app.internal.utils] is not in src/.
    The record is "created on first invocation for a user" with an id
    "generated on insert": the row is appended and committed, and the
    object, now carrying its id, is handed back. *)
Definition save (instance : UserExercise.t) : M Session UserExercise.t :=
  λ s,
    let persisted := UserExercise.set_id (next_id s) instance in
    (Ok persisted,
     {| rows := rows s ++ [persisted];
        next_id := next_id s + 1;
        faults := faults s |}).

(** The object [first()] returned is a row of the session: assigning its
    [start_date] and committing rewrites that row, the first one of the
    user. *)
Fixpoint assign_start_date (user_id : Z) (d : datetime)
    (l : list UserExercise.t) : list UserExercise.t :=
  match l with
  | [] => []
  | r :: l' =>
      if decide (UserExercise.user_id r = user_id)
      then UserExercise.set_start_date d r :: l'
      else r :: assign_start_date user_id d l'
  end.

(** [get_user_exercise(session, **param)] is only ever called with
    [user_id=...]; the keyword mapping is that one argument here. *)
Definition get_user_exercise (user_id : Z) : M Session (list UserExercise.t) :=
  try_except_SQLAlchemyError (query_filter_by user_id) (ret []).

(** Annotated [-> bool], it returns the list itself; callers test its truth
    value. *)
Definition does_user_exercise_exist (user_id : Z)
    : M Session (list UserExercise.t) :=
  get_user_exercise user_id.

(** [now] is the value [datetime.now()] returns in this invocation. *)
Definition update_user_exercise (now : datetime) (user : User.t)
    : M Session UserExercise.t :=
  found <- query_filter_by (User.id user) ;;
  match head found with
  | None =>
      raise (AttributeError "'NoneType' object has no attribute 'start_date'")
  | Some user_ex =>
      λ s, (Ok (UserExercise.set_start_date now user_ex),
            with_rows (assign_start_date (User.id user) now (rows s)) s)
  end.

Definition create_user_exercise (now : datetime) (user : User.t)
    : M Session UserExercise.t :=
  existing <- does_user_exercise_exist (User.id user) ;;
  user_exercise <-
    (if negb (truthy existing) then
       save {| UserExercise.id := None;
               UserExercise.user_id := User.id user;
               UserExercise.start_date := now |}
     else
       update_user_exercise now user) ;;
  ret user_exercise.

(** The user's rows, and the start date a lookup of the user reads. *)
Definition records_of (user_id : Z) (s : Session) : list UserExercise.t :=
  filter (λ r, UserExercise.user_id r = user_id) (rows s).

Definition start_date_of (user_id : Z) (s : Session) : option datetime :=
  UserExercise.start_date <$> head (records_of user_id s).

(** No storage failure is scheduled. *)
Definition storage_ok (s : Session) : Prop :=
  Forall (λ b, b = false) (faults s).

End user_exercise.

(** Sequences of invocations of [create_user_exercise], as a caller issues
    them one after the other on the same session: each call comes with the
    time its [datetime.now()] reads and with its user; a call that raises
    leaves the session as the exception found it. *)
Module user_exercise_runs.
Import user_exercise.

Fixpoint invoke_all (calls : list (datetime * User.t)) (s : Session)
    : Session :=
  match calls with
  | [] => s
  | (now, user) :: rest =>
      invoke_all rest (snd (create_user_exercise now user s))
  end.

(** The clock reading of the last call made for the user, if any. *)
Fixpoint last_reading (user_id : Z) (calls : list (datetime * User.t))
    : option datetime :=
  match calls with
  | [] => None
  | (now, user) :: rest =>
      match last_reading user_id rest with
      | Some t => Some t
      | None => if decide (User.id user = user_id) then Some now else None
      end
  end.

(** Every user has at most one record. *)
Definition unique_per_user (s : Session) : Prop :=
  ∀ user_id, (length (records_of user_id s) ≤ 1)%nat.

End user_exercise_runs.

(** ** Notes: schema, rows and the storage operations *)

(** A value of a decoded request body or of the mapping [dict(form)]. *)
Inductive Value : Type :=
  | VNull
  | VInt (z : Z)
  | VStr (text : string)
  | VUser (u : User.t).

Module NoteSchema.
(** Modelled from the spec: the class [NoteSchema] of
    [app.database.schemas] is not in src/.  It carries what a client sends
    of a note (section 3): the title, the description and, optionally, a
    creator; id and timestamp are the storage's. *)
Record t : Type := mk {
  title : string;
  description : string;
  creator : option User.t;
}.

Definition set_creator (c : option User.t) (n : t) : t :=
  {| title := title n; description := description n; creator := c |}.

(** [dict(note)]: the fields of the schema object as a mapping. *)
Definition dict (n : t) : gmap string Value :=
  <["title" := VStr (title n)]>
    (<["description" := VStr (description n)]>
       (<["creator" := from_option VUser VNull (creator n)]> ∅)).

Definition text_field (kwargs : gmap string Value) (field : string)
    : option string :=
  match kwargs !! field with
  | Some (VStr text) => Some text
  | _ => None
  end.

Definition user_field (kwargs : gmap string Value) (field : string)
    : option User.t :=
  match kwargs !! field with
  | Some (VUser u) => Some u
  | _ => None
  end.

(** Modelled from the spec: the validation of [NoteSchema], not in src/.
    [title] and [description] are required text, there is "no validation
    beyond required-field presence", and a creator is taken from the mapping
    when one is supplied.  [validate kwargs] builds the schema from the
    keyword arguments [kwargs]: the schema object, or the required fields
    that are absent or are not text. *)
Definition validate (kwargs : gmap string Value) : list string + t :=
  match text_field kwargs "title", text_field kwargs "description" with
  | Some t_, Some d_ =>
      inr {| title := t_; description := d_;
             creator := user_field kwargs "creator" |}
  | _, _ =>
      inl (filter (λ f, text_field kwargs f = None) ["title"; "description"])
  end.

(** A mapping the schema accepts. *)
Definition valid (kwargs : gmap string Value) : Prop :=
  is_Some (text_field kwargs "title")
  ∧ is_Some (text_field kwargs "description").

(** The constructor call inside a handler, on an unpacked mapping: a
    failure is pydantic's own error. *)
Definition init {St} (kwargs : gmap string Value) : M St t :=
  match validate kwargs with
  | inr n => ret n
  | inl missing => raise (ValidationError missing)
  end.

(** A handler parameter [request: NoteSchema]: the framework builds it from
    the request body before the handler runs and rejects the request when
    that fails. *)
Definition from_body {St} (body : gmap string Value) : M St t :=
  match validate body with
  | inr n => ret n
  | inl missing => raise (RequestValidationError missing)
  end.
End NoteSchema.

Module Note.
(** Modelled from the spec: the row class of a note, not in src/, with the
    fields of section 3. *)
Record t : Type := mk {
  id : Z;
  title : string;
  description : string;
  timestamp : datetime;
  creator : option User.t;
}.
#[global] Instance eq_dec : EqDecision t.
Proof. solve_decision. Defined.

Definition overwrite (request : NoteSchema.t) (n : t) : t :=
  {| id := id n;
     title := NoteSchema.title request;
     description := NoteSchema.description request;
     timestamp := timestamp n;
     creator := creator n |}.
End Note.

(** The storage operations of [app.internal.notes.notes], which the router
    delegates to.  The module is not in src/: each operation is modelled
    from section 4.1 of the spec. *)
Module internal_notes.

(** The [notes] table in insertion order and the id of the next insert. *)
Record Session : Type := mkSession {
  rows : list Note.t;
  next_id : Z;
}.

Definition with_rows (l : list Note.t) (s : Session) : Session :=
  {| rows := l; next_id := next_id s |}.

Definition lookup_note (note_id : Z) (s : Session) : option Note.t :=
  head (filter (λ n, Note.id n = note_id) (rows s)).

(** The ids present in storage. *)
Definition ids (s : Session) : list Z := Note.id <$> rows s.

(** Modelled from the spec: the not-found error is "a 404-class client error
    with a descriptive message including the id", of body
    [{"detail": "Note with id {id} not found"}] (sections 6 and 7). *)
Definition not_found_detail (note_id : Z) : string :=
  "Note with id " +:+ pretty note_id +:+ " not found".

Definition not_found (note_id : Z) : Exception :=
  HTTPException HTTP_404_NOT_FOUND (not_found_detail note_id).

(** Modelled from the spec: create "persists a new note with a
    server-assigned id and timestamp" and "returns the persisted record".
    [now] is the time the storage stamps the new row with. *)
Definition create_note (now : datetime) (note : NoteSchema.t)
    : M Session Note.t :=
  λ s,
    let persisted :=
      {| Note.id := next_id s;
         Note.title := NoteSchema.title note;
         Note.description := NoteSchema.description note;
         Note.timestamp := now;
         Note.creator := NoteSchema.creator note |} in
    (Ok persisted,
     {| rows := rows s ++ [persisted]; next_id := next_id s + 1 |}).

(** Modelled from the spec: the lookup by id behind "returns the note if
    present"; [read_note] tests its result with [if not note]. *)
Definition view (note_id : Z) : M Session (option Note.t) :=
  λ s, (Ok (lookup_note note_id s), s).

(** Modelled from the spec: "returns all notes in storage", in insertion
    order. *)
Definition get_all : M Session (list Note.t) :=
  λ s, (Ok (rows s), s).

(** Modelled from the spec: "if the note does not exist, signals not found;
    otherwise overwrites title/description and commits, leaving
    id/creator/timestamp untouched". *)
Definition update (request : NoteSchema.t) (note_id : Z)
    : M Session Note.t :=
  λ s,
    match lookup_note note_id s with
    | None => (Raise (not_found note_id), s)
    | Some n =>
        (Ok (Note.overwrite request n),
         with_rows
           (map (λ r, if decide (Note.id r = note_id)
                      then Note.overwrite request r else r) (rows s)) s)
    end.

(** Modelled from the spec: "if absent, signals not found; otherwise removes
    the row and returns the deleted record's data". *)
Definition delete (note_id : Z) : M Session Note.t :=
  λ s,
    match lookup_note note_id s with
    | None => (Raise (not_found note_id), s)
    | Some n =>
        (Ok n, with_rows (filter (λ r, Note.id r ≠ note_id) (rows s)) s)
    end.

End internal_notes.

(** ** The notes router, [app/routers/notes/notes.py] *)

Inductive Response : Type :=
  | RedirectResponse (url : string) (status_code : Z).

(** [templates.TemplateResponse(name, {"request": request, "data": data})]:
    the template and the data it is given to render; the request object of
    the context plays no part in the handlers and is left out. *)
Inductive TemplateData : Type :=
  | NoData
  | NoteData (note : option Note.t)
  | NotesData (notes : list Note.t).

Record TemplateResponse : Type := mkTemplateResponse {
  template_name : string;
  template_data : TemplateData;
}.

Module notes.
Export internal_notes.

Section Router.
(** [utils.get_current_user] is an external collaborator of the router:
    the resolver of the current user from the session. *)
Variable get_current_user : Session → User.t.

Definition current_user : M Session User.t :=
  λ s, (Ok (get_current_user s), s).

Definition delete_note (note_id : Z) : M Session Note.t :=
  internal_notes.delete note_id.

Definition update_note (request : NoteSchema.t) (note_id : Z)
    : M Session Note.t :=
  internal_notes.update request note_id.

Definition read_note (note_id : Z) : M Session Note.t :=
  note <- internal_notes.view note_id ;;
  match note with
  | None =>
      raise (HTTPException HTTP_404_NOT_FOUND
               ("Note with id " +:+ pretty note_id +:+ " not found"))
  | Some n => ret n
  end.

Definition get_all_notes : M Session (list Note.t) :=
  internal_notes.get_all.

Definition create_new_note (now : datetime) (request : NoteSchema.t)
    : M Session Note.t :=
  new_note <- NoteSchema.init (NoteSchema.dict request) ;;
  user <- current_user ;;
  let new_note := NoteSchema.set_creator (Some user) new_note in
  internal_notes.create_note now new_note.

Definition create_note_by_form (now : datetime)
    (form : gmap string Value) : M Session Response :=
  new_note <- NoteSchema.init form ;;
  user <- current_user ;;
  let new_note := NoteSchema.set_creator (Some user) new_note in
  _ <- internal_notes.create_note now new_note ;;
  ret (RedirectResponse "/notes" HTTP_302_FOUND).

Definition redirect_update_note (form : gmap string Value) (note_id : Z)
    : M Session Response :=
  updated_note <- NoteSchema.init form ;;
  _ <- update_note updated_note note_id ;;
  ret (RedirectResponse "/notes" HTTP_302_FOUND).

Definition redirect_delete_note (note_id : Z) : M Session Response :=
  _ <- delete_note note_id ;;
  ret (RedirectResponse "/notes" HTTP_302_FOUND).

(** The JSON routes as the framework serves them: the body is bound to
    the [request: NoteSchema] parameter, then the handler runs. *)
Definition post_notes (now : datetime) (body : gmap string Value)
    : M Session Note.t :=
  request <- NoteSchema.from_body body ;;
  create_new_note now request.

Definition put_notes (note_id : Z) (body : gmap string Value)
    : M Session Note.t :=
  request <- NoteSchema.from_body body ;;
  update_note request note_id.

(** The handlers that render a page. *)
Definition view_note (note_id : Z) : M Session TemplateResponse :=
  note <- internal_notes.view note_id ;;
  ret (mkTemplateResponse "notes/note_view.html" (NoteData note)).

Definition remove_note (note_id : Z) : M Session TemplateResponse :=
  note <- internal_notes.view note_id ;;
  ret (mkTemplateResponse "notes/note_delete.html" (NoteData note)).

Definition create_note_form : M Session TemplateResponse :=
  ret (mkTemplateResponse "notes/note.html" NoData).

Definition view_notes : M Session TemplateResponse :=
  data <- internal_notes.get_all ;;
  ret (mkTemplateResponse "notes/notes.html" (NotesData data)).

(** What an update of [note_id] does to a row. *)
Definition overwritten (request : NoteSchema.t) (note_id : Z) (r : Note.t)
    : Note.t :=
  if decide (Note.id r = note_id) then Note.overwrite request r else r.

(** Ids identify rows and the id counter is ahead of all of them. *)
Definition well_formed (s : Session) : Prop :=
  NoDup (ids s) ∧ ∀ i, i ∈ ids s → i < next_id s.

End Router.
End notes.

(** * Properties of the user-exercise record manager *)

Module user_exercise_spec.
Import user_exercise.

Lemma storage_ok_pop (s : Session) :
  storage_ok s →
  pop_fault s = (false, with_faults (tail (faults s)) s)
  ∧ storage_ok (with_faults (tail (faults s)) s).
Proof.
  unfold storage_ok, pop_fault. destruct s as [l n f]; simpl.
  intros H. destruct H as [|b f' Hb Hf]; simpl; subst; split; auto.
Qed.

Lemma query_filter_by_ok (user_id : Z) (s : Session) :
  storage_ok s →
  query_filter_by user_id s
  = (Ok (records_of user_id s), with_faults (tail (faults s)) s).
Proof.
  intros H. unfold query_filter_by.
  destruct (storage_ok_pop s H) as [-> _]. reflexivity.
Qed.

Lemma does_user_exercise_exist_ok (user_id : Z) (s : Session) :
  storage_ok s →
  does_user_exercise_exist user_id s
  = (Ok (records_of user_id s), with_faults (tail (faults s)) s).
Proof.
  intros H. unfold does_user_exercise_exist, get_user_exercise,
    try_except_SQLAlchemyError.
  rewrite query_filter_by_ok by done. reflexivity.
Qed.

Lemma filter_assign_start_date (uid uid' : Z) (d : datetime)
    (l : list UserExercise.t) :
  filter (λ r, UserExercise.user_id r = uid') (assign_start_date uid d l)
  = if decide (uid' = uid)
    then match filter (λ r, UserExercise.user_id r = uid) l with
         | [] => []
         | r :: rest => UserExercise.set_start_date d r :: rest
         end
    else filter (λ r, UserExercise.user_id r = uid') l.
Proof.
  induction l as [|r l IH]; simpl.
  - by case_decide.
  - destruct (decide (UserExercise.user_id r = uid)) as [Hr|Hr].
    + rewrite !filter_cons. simpl.
      destruct (decide (uid' = uid)) as [->|Hne].
      * rewrite !decide_True by done. reflexivity.
      * rewrite !decide_False by congruence. reflexivity.
    + rewrite !filter_cons, IH.
      destruct (decide (uid' = uid)) as [->|Hne].
      * rewrite !decide_False by done. reflexivity.
      * by destruct (decide (UserExercise.user_id r = uid')).
Qed.

Lemma create_user_exercise_absent (now : datetime) (user : User.t)
    (s : Session) :
  storage_ok s → records_of (User.id user) s = [] →
  let new := UserExercise.mk (Some (next_id s)) (User.id user) now in
  create_user_exercise now user s
  = (Ok new, mkSession (rows s ++ [new]) (next_id s + 1) (tail (faults s))).
Proof.
  intros Hok Habs. unfold create_user_exercise, bind.
  rewrite does_user_exercise_exist_ok, Habs by done. reflexivity.
Qed.

Lemma update_user_exercise_present (now : datetime) (user : User.t)
    (s : Session) (user_ex : UserExercise.t) :
  storage_ok s → head (records_of (User.id user) s) = Some user_ex →
  update_user_exercise now user s
  = (Ok (UserExercise.set_start_date now user_ex),
     mkSession (assign_start_date (User.id user) now (rows s))
       (next_id s) (tail (faults s))).
Proof.
  intros Hok Hhd. unfold update_user_exercise, bind.
  rewrite query_filter_by_ok, Hhd by done. reflexivity.
Qed.

Lemma create_user_exercise_present (now : datetime) (user : User.t)
    (s : Session) (user_ex : UserExercise.t) :
  storage_ok s → head (records_of (User.id user) s) = Some user_ex →
  create_user_exercise now user s
  = (Ok (UserExercise.set_start_date now user_ex),
     mkSession (assign_start_date (User.id user) now (rows s))
       (next_id s) (tail (tail (faults s)))).
Proof.
  intros Hok Hhd. unfold create_user_exercise, bind.
  rewrite does_user_exercise_exist_ok by done.
  destruct (records_of (User.id user) s) as [|r l] eqn:Hrec; [done|].
  simpl in Hhd. simplify_eq. simpl.
  destruct (storage_ok_pop s Hok) as [_ Hok'].
  rewrite (update_user_exercise_present now user _ user_ex Hok').
  - reflexivity.
  - unfold records_of in *. simpl. by rewrite Hrec.
Qed.

Lemma records_of_user_id (uid : Z) (s : Session) (r : UserExercise.t) :
  r ∈ records_of uid s → UserExercise.user_id r = uid.
Proof. unfold records_of. rewrite list_elem_of_filter. tauto. Qed.

Lemma head_records_of_user_id (uid : Z) (s : Session) (r : UserExercise.t) :
  head (records_of uid s) = Some r → UserExercise.user_id r = uid.
Proof.
  intros H. apply (records_of_user_id uid s). by apply head_Some_elem_of.
Qed.

(** C4: when the storage query of the existence check fails, the query
    function catches the error and hands back the empty list, which is
    falsy, so [does_user_exercise_exist] reports "does not exist"; and in
    no session state does the existence check raise. *)
Theorem does_user_exercise_exist_swallows_failure
    (user_id : Z) (l : list UserExercise.t) (n : Z) (f : list bool) :
  query_filter_by user_id (mkSession l n (true :: f))
    = (Raise SQLAlchemyError, mkSession l n f)
  ∧ get_user_exercise user_id (mkSession l n (true :: f))
    = (Ok [], mkSession l n f)
  ∧ does_user_exercise_exist user_id (mkSession l n (true :: f))
    = (Ok [], mkSession l n f)
  ∧ truthy (@nil UserExercise.t) = false
  ∧ ∀ s : Session, ∃ found s',
      does_user_exercise_exist user_id s = (Ok found, s').
Proof.
  repeat split.
  intros s. unfold does_user_exercise_exist, get_user_exercise,
    try_except_SQLAlchemyError, query_filter_by, pop_fault.
  destruct (default false (head (faults s))); eauto.
Qed.

(** C5: [update_user_exercise] relies on a record of the user being there.
    With one, it succeeds and returns that record with its start date set
    to the current time, which is also what the session then holds; with
    none, the lookup yields [None] and assigning its attribute raises an
    [AttributeError], which nothing handles. *)
Theorem update_user_exercise_presence (now : datetime) (user : User.t)
    (s : Session) :
  storage_ok s →
  match head (records_of (User.id user) s) with
  | Some user_ex =>
      ∃ s', update_user_exercise now user s
            = (Ok (UserExercise.set_start_date now user_ex), s')
        ∧ head (records_of (User.id user) s')
          = Some (UserExercise.set_start_date now user_ex)
        ∧ UserExercise.user_id (UserExercise.set_start_date now user_ex)
          = User.id user
  | None =>
      ∃ msg s', update_user_exercise now user s
                = (Raise (AttributeError msg), s')
        ∧ rows s' = rows s
  end.
Proof.
  intros Hok.
  destruct (head (records_of (User.id user) s)) as [user_ex|] eqn:Hhd.
  - eexists. split; [by apply update_user_exercise_present|].
    split.
    + unfold records_of in *. simpl. rewrite filter_assign_start_date.
      rewrite decide_True by done.
      destruct (filter _ (rows s)); simpl in *; by simplify_eq.
    + simpl. by apply (head_records_of_user_id _ s).
  - unfold update_user_exercise, bind.
    rewrite query_filter_by_ok, Hhd by done. simpl. eauto.
Qed.

Lemma update_user_exercise_presence_witness :
  (∃ s', update_user_exercise 9 (User.mk 1 "dana")
           (mkSession [UserExercise.mk (Some 1) 1 5] 2 [])
         = (Ok (UserExercise.mk (Some 1) 1 9), s'))
  ∧ (∃ msg s', update_user_exercise 9 (User.mk 1 "dana") (mkSession [] 1 [])
               = (Raise (AttributeError msg), s')).
Proof.
  split.
  - destruct (update_user_exercise_presence 9 (User.mk 1 "dana")
                (mkSession [UserExercise.mk (Some 1) 1 5] 2 []))
      as (s' & H & _); [by constructor|].
    exists s'. exact H.
  - destruct (update_user_exercise_presence 9 (User.mk 1 "dana")
                (mkSession [] 1 []))
      as (msg & s' & H & _); [by constructor|].
    exists msg, s'. exact H.
Defined.

(** C10: whatever the table holds, [create_user_exercise] returns a record
    of the given user whose start date is the current time of the
    invocation: the inserted row when the user had none, the user's first
    row, restarted, when there was one. *)
Theorem create_user_exercise_returns (now : datetime) (user : User.t)
    (s : Session) :
  storage_ok s →
  ∃ user_exercise s',
    create_user_exercise now user s = (Ok user_exercise, s')
    ∧ UserExercise.user_id user_exercise = User.id user
    ∧ UserExercise.start_date user_exercise = now
    ∧ user_exercise ∈ rows s'
    ∧ match head (records_of (User.id user) s) with
      | None => rows s' = rows s ++ [user_exercise]
      | Some user_ex =>
          user_exercise = UserExercise.set_start_date now user_ex
          ∧ rows s' = assign_start_date (User.id user) now (rows s)
      end.
Proof.
  intros Hok.
  destruct (head (records_of (User.id user) s)) as [user_ex|] eqn:Hhd.
  - do 2 eexists. split; [by apply create_user_exercise_present|].
    simpl. split; [by apply (head_records_of_user_id _ s)|].
    split; [done|]. split; [|done].
    assert (UserExercise.set_start_date now user_ex
            ∈ records_of (User.id user)
                (with_rows (assign_start_date (User.id user) now (rows s)) s))
      as Hin.
    { unfold records_of in *. simpl. rewrite filter_assign_start_date.
      rewrite decide_True by done.
      destruct (filter _ (rows s)); simpl in *; simplify_eq. set_solver. }
    unfold records_of in Hin. apply list_elem_of_filter in Hin. tauto.
  - apply head_None in Hhd.
    do 2 eexists. split; [by apply create_user_exercise_absent|].
    simpl. repeat split. set_solver.
Qed.

Lemma create_user_exercise_returns_witness :
  ∃ user_exercise s',
    create_user_exercise 9 (User.mk 1 "dana")
      (mkSession [UserExercise.mk (Some 1) 1 5] 2 [])
    = (Ok user_exercise, s')
    ∧ UserExercise.user_id user_exercise = 1
    ∧ UserExercise.start_date user_exercise = 9.
Proof.
  destruct (create_user_exercise_returns 9 (User.mk 1 "dana")
              (mkSession [UserExercise.mk (Some 1) 1 5] 2 []))
    as (ue & s' & H & Hu & Hd & _); [by constructor|].
  exists ue, s'. auto.
Defined.

(** One invocation, seen through the rows of each user: the user's rows gain
    the new record when there was none, have their first record restarted
    otherwise, and the rows of every other user stay as they were. *)
Lemma create_user_exercise_step (now : datetime) (user : User.t)
    (s : Session) :
  storage_ok s →
  ∃ user_exercise s',
    create_user_exercise now user s = (Ok user_exercise, s')
    ∧ storage_ok s'
    ∧ UserExercise.start_date user_exercise = now
    ∧ records_of (User.id user) s'
      = match records_of (User.id user) s with
        | [] => [user_exercise]
        | r :: rest => UserExercise.set_start_date now r :: rest
        end
    ∧ ∀ uid', uid' ≠ User.id user → records_of uid' s' = records_of uid' s.
Proof.
  intros Hok.
  assert (storage_ok (with_faults (tail (faults s)) s)) as Hok1
    by apply storage_ok_pop, Hok.
  assert (storage_ok (with_faults (tail (tail (faults s))) s)) as Hok2.
  { apply (storage_ok_pop _ Hok1). }
  destruct (head (records_of (User.id user) s)) as [user_ex|] eqn:Hhd.
  - do 2 eexists. split; [by apply create_user_exercise_present|].
    split; [exact Hok2|]. split; [done|].
    unfold records_of in *. simpl. split.
    + rewrite filter_assign_start_date, decide_True by done.
      destruct (filter _ (rows s)); simpl in *; by simplify_eq.
    + intros uid' Hne. rewrite filter_assign_start_date.
      by rewrite decide_False.
  - apply head_None in Hhd.
    do 2 eexists. split; [by apply create_user_exercise_absent|].
    split; [exact Hok1|]. split; [done|].
    unfold records_of in *. simpl. split.
    + rewrite filter_app, Hhd, filter_cons, decide_True by done. done.
    + intros uid' Hne. rewrite filter_app, filter_cons, decide_False by done.
      rewrite filter_nil. apply app_nil_r.
Qed.

(** C3, as the code has it: from a table with at most one record of the
    user, and with no storage failure, two invocations in sequence leave
    exactly one record of the user after each of them and leave the records
    of all other users alone; the record's start date is the clock reading
    of the first invocation after the first and that of the second after the
    second (a restart, not a no-op), so it is strictly later whenever the
    clock advanced between the two readings. *)
Theorem create_user_exercise_twice (now1 now2 : datetime) (user : User.t)
    (s : Session) :
  storage_ok s →
  (length (records_of (User.id user) s) ≤ 1)%nat →
  ∃ ue1 s1 ue2 s2,
    create_user_exercise now1 user s = (Ok ue1, s1)
    ∧ create_user_exercise now2 user s1 = (Ok ue2, s2)
    ∧ length (records_of (User.id user) s1) = 1%nat
    ∧ length (records_of (User.id user) s2) = 1%nat
    ∧ start_date_of (User.id user) s1 = Some now1
    ∧ start_date_of (User.id user) s2 = Some now2
    ∧ UserExercise.start_date ue1 = now1
    ∧ UserExercise.start_date ue2 = now2
    ∧ (∀ uid', uid' ≠ User.id user → records_of uid' s2 = records_of uid' s)
    ∧ (now1 < now2 →
       UserExercise.start_date ue1 < UserExercise.start_date ue2).
Proof.
  intros Hok Hle.
  destruct (create_user_exercise_step now1 user s Hok)
    as (ue1 & s1 & Hrun1 & Hok1 & Hd1 & Hrec1 & Hframe1).
  destruct (create_user_exercise_step now2 user s1 Hok1)
    as (ue2 & s2 & Hrun2 & Hok2 & Hd2 & Hrec2 & Hframe2).
  exists ue1, s1, ue2, s2.
  assert (∃ r1, records_of (User.id user) s1 = [r1]
                ∧ UserExercise.start_date r1 = now1) as (r1 & Hs1 & Hr1).
  { rewrite Hrec1. destruct (records_of (User.id user) s) as [|r [|r' l]];
      simpl in *; [by eauto | by eauto | lia]. }
  rewrite Hs1 in Hrec2.
  unfold start_date_of. rewrite Hrec2, Hs1. simpl.
  repeat split; try done.
  - by rewrite Hr1.
  - intros uid' Hne. by rewrite Hframe2, Hframe1.
  - lia.
Qed.

Lemma create_user_exercise_twice_witness :
  storage_ok (mkSession [] 1 [])
  ∧ ∃ ue1 s1 ue2 s2,
      create_user_exercise 5 (User.mk 1 "dana") (mkSession [] 1 [])
        = (Ok ue1, s1)
      ∧ create_user_exercise 9 (User.mk 1 "dana") s1 = (Ok ue2, s2)
      ∧ length (records_of 1 s2) = 1%nat
      ∧ UserExercise.start_date ue1 < UserExercise.start_date ue2.
Proof.
  assert (storage_ok (mkSession [] 1 [])) as Hok by constructor.
  split; [exact Hok|].
  destruct (create_user_exercise_twice 5 9 (User.mk 1 "dana")
              (mkSession [] 1 []) Hok)
    as (ue1 & s1 & ue2 & s2 & H1 & H2 & _ & Hlen & _ & _ & _ & _ & _ & Hlt);
    [simpl; lia|].
  exists ue1, s1, ue2, s2. repeat split; auto. apply Hlt. lia.
Defined.

(** C3, as stated, fails on the code: the start date is whatever
    [datetime.now()] reads in the invocation, and nothing makes two readings
    increase.  When both invocations read the same time (a clock coarser
    than the time between the calls; a wall clock set back can even read
    less) there is one record, restarted, and its start date after the
    second call is not later than after the first. *)
Lemma create_user_exercise_twice_not_strictly_later :
  ∃ ue1 s1 ue2 s2,
    create_user_exercise 5 (User.mk 1 "dana") (mkSession [] 1 [])
      = (Ok ue1, s1)
    ∧ create_user_exercise 5 (User.mk 1 "dana") s1 = (Ok ue2, s2)
    ∧ records_of 1 s2 = [ue2]
    ∧ start_date_of 1 s1 = Some 5
    ∧ start_date_of 1 s2 = Some 5
    ∧ ¬ (UserExercise.start_date ue1 < UserExercise.start_date ue2).
Proof.
  do 4 eexists. split; [reflexivity|]. split; [reflexivity|].
  split; [reflexivity|]. split; [reflexivity|]. split; [reflexivity|].
  simpl. lia.
Qed.

End user_exercise_spec.

(** * Properties of the notes router *)

Module notes_spec.
Import notes.

Lemma length_append (a b : string) :
  String.length (a +:+ b) = (String.length a + String.length b)%nat.
Proof. induction a as [|c a IH]; simpl; [done|]. by rewrite IH. Qed.

Lemma append_inv_tail (a b suffix : string) :
  a +:+ suffix = b +:+ suffix → a = b.
Proof.
  revert b. induction a as [|c a IH]; intros [|c' b] H; simpl in *.
  - reflexivity.
  - apply (f_equal String.length) in H.
    rewrite !length_append in H. simpl in H. lia.
  - apply (f_equal String.length) in H.
    rewrite !length_append in H. simpl in H. lia.
  - change (String c (a +:+ suffix) = String c' (b +:+ suffix)) in H.
    injection H as -> H. f_equal. by apply IH.
Qed.

(** The message names the id, and names no other. *)
Lemma not_found_detail_contains (note_id : Z) :
  contains (pretty note_id) (not_found_detail note_id).
Proof. by exists "Note with id ", " not found". Qed.

Lemma not_found_detail_inj (i j : Z) :
  not_found_detail i = not_found_detail j → i = j.
Proof.
  unfold not_found_detail. intros H. simpl in H. simplify_eq.
  apply append_inv_tail in H. by apply (inj pretty).
Qed.

Lemma lookup_note_absent (note_id : Z) (s : Session) :
  note_id ∉ ids s → lookup_note note_id s = None.
Proof.
  unfold ids, lookup_note. intros Hnot. apply head_None.
  destruct (filter _ (rows s)) as [|n l] eqn:Hf; [done|].
  exfalso. apply Hnot.
  assert (n ∈ filter (λ n, Note.id n = note_id) (rows s)) as Hin
    by (rewrite Hf; set_solver).
  apply list_elem_of_filter in Hin as [<- Hin].
  by apply list_elem_of_fmap_2.
Qed.

Lemma lookup_note_present (note_id : Z) (s : Session) :
  note_id ∈ ids s →
  ∃ n, lookup_note note_id s = Some n ∧ Note.id n = note_id ∧ n ∈ rows s.
Proof.
  unfold ids, lookup_note. intros Hin.
  apply list_elem_of_fmap in Hin as (n & -> & Hin).
  destruct (filter (λ r, Note.id r = Note.id n) (rows s)) as [|m l] eqn:Hf.
  - assert (n ∈ filter (λ r, Note.id r = Note.id n) (rows s)) as Hn
      by (apply list_elem_of_filter; done).
    rewrite Hf in Hn. set_solver.
  - exists m. split; [done|].
    assert (m ∈ filter (λ r, Note.id r = Note.id n) (rows s)) as Hm
      by (rewrite Hf; set_solver).
    by apply list_elem_of_filter in Hm.
Qed.

Lemma validate_valid (kwargs : gmap string Value) :
  NoteSchema.valid kwargs →
  ∃ t d, NoteSchema.text_field kwargs "title" = Some t
    ∧ NoteSchema.text_field kwargs "description" = Some d
    ∧ NoteSchema.validate kwargs
      = inr (NoteSchema.mk t d (NoteSchema.user_field kwargs "creator")).
Proof.
  intros [[t Ht] [d Hd]]. exists t, d. unfold NoteSchema.validate.
  by rewrite Ht, Hd.
Qed.

Lemma validate_invalid (kwargs : gmap string Value) :
  ¬ NoteSchema.valid kwargs →
  ∃ missing, NoteSchema.validate kwargs = inl missing ∧ missing ≠ [].
Proof.
  intros Hnot. unfold NoteSchema.validate, NoteSchema.valid in *.
  destruct (NoteSchema.text_field kwargs "title") as [t|] eqn:Ht;
    destruct (NoteSchema.text_field kwargs "description") as [d|] eqn:Hd.
  - destruct Hnot. eauto.
  - eexists. split; [done|].
    rewrite filter_cons, Ht, decide_False by done.
    by rewrite filter_cons, Hd, decide_True.
  - eexists. split; [done|]. by rewrite filter_cons, Ht, decide_True.
  - eexists. split; [done|]. by rewrite filter_cons, Ht, decide_True.
Qed.

Lemma validate_dict (n : NoteSchema.t) :
  NoteSchema.validate (NoteSchema.dict n) = inr n.
Proof.
  destruct n as [t d c].
  unfold NoteSchema.validate, NoteSchema.text_field, NoteSchema.user_field,
    NoteSchema.dict.
  simpl. simplify_map_eq. by destruct c.
Qed.

Section RouterProperties.
Variable get_current_user : Session → User.t.

(** C2: for an id that is not in storage, reading, updating and deleting
    through the JSON API each raise an HTTP error of status 404 whose detail
    is "Note with id <id> not found", with the id in decimal; nothing is
    returned and the session is left as it was.  The detail contains the id
    and determines it.  (For the update this is the request whose body the
    schema accepts.) *)
Theorem absent_id_is_not_found (note_id : Z) (request : NoteSchema.t)
    (s : Session) :
  note_id ∉ ids s →
  let detail := "Note with id " +:+ pretty note_id +:+ " not found" in
  read_note note_id s = (Raise (HTTPException 404 detail), s)
  ∧ update_note request note_id s = (Raise (HTTPException 404 detail), s)
  ∧ delete_note note_id s = (Raise (HTTPException 404 detail), s)
  ∧ (∀ body, NoteSchema.valid body →
       put_notes note_id body s = (Raise (HTTPException 404 detail), s))
  ∧ status_of_exception (HTTPException 404 detail) = HTTP_404_NOT_FOUND
  ∧ contains (pretty note_id) detail
  ∧ ∀ other : Z, not_found_detail other = detail → other = note_id.
Proof.
  intros Habs detail. apply lookup_note_absent in Habs.
  unfold read_note, update_note, delete_note, internal_notes.update,
    internal_notes.delete, internal_notes.view, bind.
  rewrite Habs. simpl. do 3 (split; [done|]).
  split.
  { intros body Hv.
    destruct (validate_valid body Hv) as (t & d & _ & _ & Hval).
    unfold put_notes, NoteSchema.from_body, update_note,
      internal_notes.update, bind.
    rewrite Hval. simpl. by rewrite Habs. }
  split; [done|]. split; [apply not_found_detail_contains|].
  intros other H. by apply not_found_detail_inj.
Qed.

Lemma absent_id_is_not_found_witness :
  (666 ∉ ids (mkSession [Note.mk 1 "something" "something else" 0 None] 2))
  ∧ read_note 666
      (mkSession [Note.mk 1 "something" "something else" 0 None] 2)
    = (Raise (HTTPException 404 "Note with id 666 not found"),
       mkSession [Note.mk 1 "something" "something else" 0 None] 2).
Proof.
  assert (666 ∉ ids (mkSession [Note.mk 1 "something" "something else" 0 None] 2))
    as Habs.
  { unfold ids. simpl. apply not_elem_of_cons. split; [done|].
    apply not_elem_of_nil. }
  split; [exact Habs|].
  exact (proj1 (absent_id_is_not_found 666 (NoteSchema.mk "foo" "bar" None)
                  _ Habs)).
Defined.

(** C6: whatever the id, in storage or not, a PUT whose body lacks the
    title or lacks the description is rejected while the body is bound to
    the handler's parameter: the answer is the validation error, of status
    422, and [update_note] is never entered, so the session is untouched
    and an unknown id does not turn the answer into a 404. *)
Theorem partial_update_is_rejected (note_id : Z) (body : gmap string Value)
    (s : Session) :
  body !! "title" = None ∨ body !! "description" = None →
  ∃ missing,
    put_notes note_id body s = (Raise (RequestValidationError missing), s)
    ∧ missing ≠ []
    ∧ status_of_exception (RequestValidationError missing)
      = HTTP_422_UNPROCESSABLE_ENTITY
    ∧ ∀ request, put_notes note_id body s ≠ update_note request note_id s.
Proof.
  intros Hmiss.
  assert (¬ NoteSchema.valid body) as Hinv.
  { unfold NoteSchema.valid, NoteSchema.text_field.
    intros [[t Ht] [d Hd]]. destruct Hmiss as [H|H]; rewrite H in *; done. }
  destruct (validate_invalid body Hinv) as (missing & Hv & Hne).
  exists missing.
  assert (put_notes note_id body s
          = (Raise (RequestValidationError missing), s)) as Hput.
  { unfold put_notes, NoteSchema.from_body, bind. by rewrite Hv. }
  split; [exact Hput|]. split; [exact Hne|]. split; [done|].
  intros request. rewrite Hput.
  unfold update_note, internal_notes.update.
  destruct (lookup_note note_id s); simpl; discriminate.
Qed.

Lemma partial_update_is_rejected_witness :
  ((<["description" := VStr "bar"]> ∅ : gmap string Value) !! "title" = None
   ∨ (<["description" := VStr "bar"]> ∅ : gmap string Value) !! "description"
     = None)
  ∧ ∃ missing,
      put_notes 999 (<["description" := VStr "bar"]> ∅) (mkSession [] 1)
      = (Raise (RequestValidationError missing), mkSession [] 1).
Proof.
  assert ((<["description" := VStr "bar"]> ∅ : gmap string Value) !! "title"
          = None) as H by done.
  split; [by left|].
  destruct (partial_update_is_rejected 999 (<["description" := VStr "bar"]> ∅)
              (mkSession [] 1) (or_introl H)) as (missing & Hput & _).
  exists missing. exact Hput.
Defined.

Lemma lookup_overwritten (request : NoteSchema.t) (note_id : Z)
    (l : list Note.t) (i : nat) (r : Note.t) :
  l !! i = Some r →
  map (λ r, if decide (Note.id r = note_id)
            then Note.overwrite request r else r) l !! i
  = Some (if decide (Note.id r = note_id)
          then Note.overwrite request r else r).
Proof.
  intros H.
  change (map ?f l) with (f <$> l). by rewrite list_lookup_fmap, H.
Qed.

(** C7: updating a note that is in storage rewrites its title and its
    description and nothing else: every row keeps its place, its id, its
    creator and its timestamp, a row of another id is the very same row
    afterwards, and no row is added or removed. *)
Theorem update_overwrites_only_title_and_description
    (request : NoteSchema.t) (note_id : Z) (s : Session) :
  note_id ∈ ids s →
  ∃ updated s',
    update_note request note_id s = (Ok updated, s')
    ∧ Note.id updated = note_id
    ∧ Note.title updated = NoteSchema.title request
    ∧ Note.description updated = NoteSchema.description request
    ∧ updated ∈ rows s'
    ∧ length (rows s') = length (rows s)
    ∧ next_id s' = next_id s
    ∧ ∀ (i : nat) (r : Note.t), rows s !! i = Some r →
        ∃ r', rows s' !! i = Some r'
          ∧ Note.id r' = Note.id r
          ∧ Note.creator r' = Note.creator r
          ∧ Note.timestamp r' = Note.timestamp r
          ∧ (Note.id r = note_id →
             Note.title r' = NoteSchema.title request
             ∧ Note.description r' = NoteSchema.description request)
          ∧ (Note.id r ≠ note_id → r' = r).
Proof.
  intros Hin.
  destruct (lookup_note_present note_id s Hin) as (n & Hlook & Hid & Hn).
  exists (Note.overwrite request n).
  eexists. unfold update_note, internal_notes.update. rewrite Hlook.
  split; [reflexivity|]. simpl.
  split; [done|]. split; [done|]. split; [done|].
  split.
  { apply list_elem_of_lookup in Hn as [i Hi].
    apply list_elem_of_lookup. exists i.
    rewrite (lookup_overwritten request note_id _ i n Hi).
    by rewrite decide_True. }
  split; [by rewrite length_map|]. split; [done|].
  intros i r Hr. eexists.
  split; [by apply lookup_overwritten|].
  destruct (decide (Note.id r = note_id)); simpl; repeat split; done.
Qed.

Lemma update_overwrites_only_title_and_description_witness :
  2 ∈ ids (mkSession [Note.mk 1 "a" "b" 10 None; Note.mk 2 "c" "d" 20 None] 3)
  ∧ ∃ updated s',
      update_note (NoteSchema.mk "someone" "someone else" None) 2
        (mkSession [Note.mk 1 "a" "b" 10 None; Note.mk 2 "c" "d" 20 None] 3)
      = (Ok updated, s')
      ∧ Note.id updated = 2
      ∧ Note.title updated = "someone"
      ∧ Note.description updated = "someone else".
Proof.
  assert (2 ∈ ids (mkSession [Note.mk 1 "a" "b" 10 None;
                               Note.mk 2 "c" "d" 20 None] 3))
    as Hin.
  { unfold ids. simpl. apply list_elem_of_further, list_elem_of_here. }
  split; [exact Hin|].
  destruct (update_overwrites_only_title_and_description
              (NoteSchema.mk "someone" "someone else" None) 2 _ Hin)
    as (updated & s' & Hrun & Hid & Ht & Hd & _).
  exists updated, s'. auto.
Defined.

Lemma init_valid {St} (form : gmap string Value) (s : St) :
  NoteSchema.valid form →
  ∃ n, NoteSchema.init form s = (Ok n, s)
    ∧ NoteSchema.text_field form "title" = Some (NoteSchema.title n)
    ∧ NoteSchema.text_field form "description"
      = Some (NoteSchema.description n).
Proof.
  intros Hv. destruct (validate_valid form Hv) as (t & d & Ht & Hd & Hval).
  eexists. unfold NoteSchema.init. rewrite Hval. by split.
Qed.

Lemma init_invalid {St} (form : gmap string Value) (s : St) :
  ¬ NoteSchema.valid form →
  ∃ missing, NoteSchema.init form s = (Raise (ValidationError missing), s).
Proof.
  intros Hv. destruct (validate_invalid form Hv) as (missing & Hval & _).
  exists missing. unfold NoteSchema.init. by rewrite Hval.
Qed.

Lemma valid_dec (form : gmap string Value) :
  NoteSchema.valid form ∨ ¬ NoteSchema.valid form.
Proof.
  unfold NoteSchema.valid.
  destruct (NoteSchema.text_field form "title");
    destruct (NoteSchema.text_field form "description");
    first [ left; split; by eauto
          | right; intros [[? ?] [? ?]]; discriminate ].
Qed.

(** C8: each form endpoint, when it succeeds, answers with the redirect to
    "/notes" and not with the note.  Creating succeeds for every form that
    carries a title and a description, updating for such a form and an id in
    storage, deleting for an id in storage; and no successful answer of the
    three is anything but that redirect. *)
Theorem form_success_redirects_to_notes (now : datetime)
    (form : gmap string Value) (note_id : Z) (s : Session) :
  (NoteSchema.valid form →
   ∃ s', create_note_by_form get_current_user now form s
         = (Ok (RedirectResponse "/notes" 302), s'))
  ∧ (NoteSchema.valid form → note_id ∈ ids s →
     ∃ s', redirect_update_note form note_id s
           = (Ok (RedirectResponse "/notes" 302), s'))
  ∧ (note_id ∈ ids s →
     ∃ s', redirect_delete_note note_id s
           = (Ok (RedirectResponse "/notes" 302), s'))
  ∧ ∀ response s',
      create_note_by_form get_current_user now form s = (Ok response, s')
      ∨ redirect_update_note form note_id s = (Ok response, s')
      ∨ redirect_delete_note note_id s = (Ok response, s') →
      response = RedirectResponse "/notes" 302.
Proof.
  split; [|split; [|split]].
  - intros Hv. destruct (init_valid form s Hv) as (n & Hn & _).
    unfold create_note_by_form, bind. rewrite Hn. simpl. eauto.
  - intros Hv Hin. destruct (init_valid form s Hv) as (n & Hn & _).
    destruct (lookup_note_present note_id s Hin) as (m & Hm & _).
    unfold redirect_update_note, update_note, internal_notes.update, bind.
    rewrite Hn, Hm. simpl. eauto.
  - intros Hin.
    destruct (lookup_note_present note_id s Hin) as (m & Hm & _).
    unfold redirect_delete_note, delete_note, internal_notes.delete, bind.
    rewrite Hm. simpl. eauto.
  - intros response s'.
    unfold create_note_by_form, redirect_update_note, redirect_delete_note,
      update_note, delete_note, internal_notes.update, internal_notes.delete,
      internal_notes.create_note, current_user, bind, ret.
    intros [H|[H|H]]; revert H.
    + destruct (NoteSchema.init form s) as [[n|e] s1]; simpl;
        intros H; by simplify_eq.
    + destruct (NoteSchema.init form s) as [[n|e] s1]; simpl;
        [|intros H; by simplify_eq].
      destruct (lookup_note note_id s1); simpl; intros H; by simplify_eq.
    + destruct (lookup_note note_id s); simpl; intros H; by simplify_eq.
Qed.

(** C9: for an id that is not in storage the form delete and the form
    update do not redirect: the not-found error of the delegated delete or
    update comes out of the handler as it was raised, with the session
    untouched.  (An update form the schema refuses raises before that; the
    redirect is not reached either.) *)
Theorem form_absent_id_propagates_not_found (form : gmap string Value)
    (note_id : Z) (s : Session) :
  note_id ∉ ids s →
  redirect_delete_note note_id s = (Raise (not_found note_id), s)
  ∧ delete_note note_id s = (Raise (not_found note_id), s)
  ∧ (NoteSchema.valid form →
     redirect_update_note form note_id s = (Raise (not_found note_id), s)
     ∧ ∀ request, update_note request note_id s
                  = (Raise (not_found note_id), s))
  ∧ (∃ e, redirect_update_note form note_id s = (Raise e, s))
  ∧ status_of_exception (not_found note_id) = HTTP_404_NOT_FOUND.
Proof.
  intros Habs. apply lookup_note_absent in Habs.
  assert (∀ request, update_note request note_id s
                     = (Raise (not_found note_id), s)) as Hupd.
  { intros request. unfold update_note, internal_notes.update.
    by rewrite Habs. }
  assert (delete_note note_id s = (Raise (not_found note_id), s)) as Hdel.
  { unfold delete_note, internal_notes.delete. by rewrite Habs. }
  split; [unfold redirect_delete_note, bind; by rewrite Hdel|].
  split; [exact Hdel|].
  split; [|split; [|done]].
  - intros Hv. destruct (init_valid form s Hv) as (n & Hn & _).
    split; [|exact Hupd].
    unfold redirect_update_note, bind. by rewrite Hn, Hupd.
  - destruct (valid_dec form) as [Hv|Hv].
    + destruct (init_valid form s Hv) as (n & Hn & _).
      exists (not_found note_id).
      unfold redirect_update_note, bind. by rewrite Hn, Hupd.
    + destruct (init_invalid form s Hv) as (missing & Hn).
      exists (ValidationError missing).
      unfold redirect_update_note, bind. by rewrite Hn.
Qed.

Lemma text_field_modulo_creator (f1 f2 : gmap string Value) (field : string) :
  base.delete "creator" f1 = base.delete "creator" f2 → field ≠ "creator" →
  NoteSchema.text_field f1 field = NoteSchema.text_field f2 field.
Proof.
  intros Heq Hne. unfold NoteSchema.text_field.
  rewrite <- (lookup_delete_ne f1 "creator" field) by done.
  rewrite <- (lookup_delete_ne f2 "creator" field) by done.
  by rewrite Heq.
Qed.

(** Two mappings that differ in the creator only are both refused, for the
    same fields, or give schema objects that differ in the creator only. *)
Lemma validate_modulo_creator (f1 f2 : gmap string Value) :
  base.delete "creator" f1 = base.delete "creator" f2 →
  (∃ missing, NoteSchema.validate f1 = inl missing
              ∧ NoteSchema.validate f2 = inl missing)
  ∨ (∃ n1 n2, NoteSchema.validate f1 = inr n1
              ∧ NoteSchema.validate f2 = inr n2
              ∧ ∀ c, NoteSchema.set_creator c n1 = NoteSchema.set_creator c n2).
Proof.
  intros Heq. unfold NoteSchema.validate.
  rewrite !filter_cons, !filter_nil.
  rewrite !(text_field_modulo_creator f1 f2 "title") by done.
  rewrite !(text_field_modulo_creator f1 f2 "description") by done.
  destruct (NoteSchema.text_field f2 "title");
    destruct (NoteSchema.text_field f2 "description"); eauto.
  right. do 2 eexists. by repeat split.
Qed.

(** C1: a create request with a title and a description, as JSON or as a
    form, persists one note whose creator is the user the server resolves
    from the session, and what the client sent as creator has no influence:
    two requests that differ in the creator only end in the same record and
    the same session. *)
Theorem created_note_creator_is_current_user (now : datetime)
    (request : NoteSchema.t) (form : gmap string Value) (s : Session) :
  (∃ note,
      create_new_note get_current_user now request s
      = (Ok note, mkSession (rows s ++ [note]) (next_id s + 1))
      ∧ Note.creator note = Some (get_current_user s)
      ∧ Note.title note = NoteSchema.title request
      ∧ Note.description note = NoteSchema.description request)
  ∧ (∀ client_creator,
      create_new_note get_current_user now
        (NoteSchema.set_creator client_creator request) s
      = create_new_note get_current_user now request s)
  ∧ (NoteSchema.valid form →
     ∃ note,
       create_note_by_form get_current_user now form s
       = (Ok (RedirectResponse "/notes" HTTP_302_FOUND),
          mkSession (rows s ++ [note]) (next_id s + 1))
       ∧ post_notes get_current_user now form s
         = (Ok note, mkSession (rows s ++ [note]) (next_id s + 1))
       ∧ Note.creator note = Some (get_current_user s)
       ∧ NoteSchema.text_field form "title" = Some (Note.title note)
       ∧ NoteSchema.text_field form "description"
         = Some (Note.description note))
  ∧ (∀ form', base.delete "creator" form' = base.delete "creator" form →
      create_note_by_form get_current_user now form' s
      = create_note_by_form get_current_user now form s
      ∧ post_notes get_current_user now form' s
        = post_notes get_current_user now form s).
Proof.
  assert (∀ r, create_new_note get_current_user now r s
               = internal_notes.create_note now
                   (NoteSchema.set_creator (Some (get_current_user s)) r) s)
    as Hnew.
  { intros r. unfold create_new_note, NoteSchema.init, bind.
    by rewrite validate_dict. }
  split; [|split; [|split]].
  - eexists. rewrite Hnew. unfold internal_notes.create_note. simpl.
    by repeat split.
  - intros c. by rewrite !Hnew.
  - intros Hv. destruct (validate_valid form Hv) as (t & d & Ht & Hd & Hval).
    eexists.
    unfold create_note_by_form, post_notes, NoteSchema.init,
      NoteSchema.from_body, bind.
    rewrite Hval. simpl. rewrite Hnew.
    unfold internal_notes.create_note. simpl. by repeat split.
  - intros form' Heq.
    unfold create_note_by_form, post_notes, NoteSchema.init,
      NoteSchema.from_body, bind.
    destruct (validate_modulo_creator form' form Heq)
      as [(missing & -> & ->)|(n1 & n2 & -> & -> & Hsame)]; [done|].
    pose proof (Hsame None) as Hfields. injection Hfields as Ht Hd.
    simpl. rewrite !Hnew, Hsame, Ht, Hd. done.
Qed.

End RouterProperties.

Lemma created_note_creator_is_current_user_witness :
  let server_user := User.mk 1 "new_user" in
  let form : gmap string Value :=
    <["title" := VStr "something"]>
      (<["description" := VStr "something else"]>
         (<["creator" := VUser (User.mk 7 "mallory")]> ∅)) in
  NoteSchema.valid form
  ∧ ∃ note,
      post_notes (λ _, server_user) 20 form (mkSession [] 1)
      = (Ok note, mkSession [note] 2)
      ∧ Note.creator note = Some server_user.
Proof.
  intros server_user form.
  assert (NoteSchema.valid form) as Hv by (split; by eexists).
  split; [exact Hv|].
  destruct (created_note_creator_is_current_user (λ _, server_user) 20
              (NoteSchema.mk "something" "something else" None) form
              (mkSession [] 1))
    as (_ & _ & Hform & _).
  destruct (Hform Hv) as (note & _ & Hpost & Hcreator & _).
  exists note. split; [exact Hpost|exact Hcreator].
Defined.

Lemma form_absent_id_propagates_not_found_witness :
  (999 ∉ ids (mkSession [Note.mk 1 "a" "b" 10 None] 2))
  ∧ redirect_delete_note 999 (mkSession [Note.mk 1 "a" "b" 10 None] 2)
    = (Raise (HTTPException 404 "Note with id 999 not found"),
       mkSession [Note.mk 1 "a" "b" 10 None] 2).
Proof.
  assert (999 ∉ ids (mkSession [Note.mk 1 "a" "b" 10 None] 2)) as Habs.
  { unfold ids. simpl. apply not_elem_of_cons. split; [done|].
    apply not_elem_of_nil. }
  split; [exact Habs|].
  exact (proj1 (form_absent_id_propagates_not_found ∅ 999 _ Habs)).
Defined.

Lemma form_success_redirects_to_notes_witness :
  let form : gmap string Value :=
    <["title" := VStr "something"]>
      (<["description" := VStr "something else"]> ∅) in
  let s := mkSession [Note.mk 1 "a" "b" 10 None] 2 in
  NoteSchema.valid form ∧ 1 ∈ ids s
  ∧ (∃ s', create_note_by_form (λ _, User.mk 1 "new_user") 20 form s
           = (Ok (RedirectResponse "/notes" 302), s'))
  ∧ (∃ s', redirect_update_note form 1 s
           = (Ok (RedirectResponse "/notes" 302), s'))
  ∧ (∃ s', redirect_delete_note 1 s
           = (Ok (RedirectResponse "/notes" 302), s')).
Proof.
  intros form s.
  assert (NoteSchema.valid form) as Hv by (split; by eexists).
  assert (1 ∈ ids s) as Hin by apply list_elem_of_here.
  destruct (form_success_redirects_to_notes (λ _, User.mk 1 "new_user")
              20 form 1 s)
    as (Hc & Hu & Hd & _).
  split; [exact Hv|]. split; [exact Hin|]. split; [exact (Hc Hv)|].
  split; [exact (Hu Hv Hin)|exact (Hd Hin)].
Defined.

End notes_spec.

(** * Further properties of the user-exercise record manager *)

Module user_exercise_behaviour.
Import user_exercise user_exercise_runs user_exercise_spec.


Lemma length_assign_start_date (uid : Z) (d : datetime)
    (l : list UserExercise.t) :
  length (assign_start_date uid d l) = length l.
Proof.
  induction l as [|r l IH]; simpl; [done|].
  destruct (decide (UserExercise.user_id r = uid)); simpl; by rewrite ?IH.
Qed.

Lemma lookup_assign_start_date (uid : Z) (d : datetime)
    (l : list UserExercise.t) (i : nat) (x : UserExercise.t) :
  l !! i = Some x →
  ∃ x', assign_start_date uid d l !! i = Some x'
    ∧ UserExercise.id x' = UserExercise.id x
    ∧ UserExercise.user_id x' = UserExercise.user_id x
    ∧ (UserExercise.user_id x ≠ uid → x' = x).
Proof.
  revert i. induction l as [|r l IH]; intros i Hi; [done|].
  simpl. destruct (decide (UserExercise.user_id r = uid)) as [Hr|Hr].
  - destruct i as [|i]; simpl in *.
    + simplify_eq. eexists. split; [done|]. by repeat split.
    + exists x. by repeat split.
  - destruct i as [|i]; simpl in *.
    + simplify_eq. exists x. by repeat split.
    + by apply IH.
Qed.

(** The three ways an invocation can go, for any session and any schedule of
    storage failures. *)
Lemma create_user_exercise_cases (now : datetime) (user : User.t)
    (s : Session) :
  ∃ f',
    (let new := UserExercise.mk (Some (next_id s)) (User.id user) now in
     create_user_exercise now user s
     = (Ok new, mkSession (rows s ++ [new]) (next_id s + 1) f'))
    ∨ (∃ r, head (records_of (User.id user) s) = Some r
         ∧ create_user_exercise now user s
           = (Ok (UserExercise.set_start_date now r),
              mkSession (assign_start_date (User.id user) now (rows s))
                (next_id s) f'))
    ∨ (records_of (User.id user) s ≠ []
       ∧ create_user_exercise now user s
         = (Raise SQLAlchemyError, mkSession (rows s) (next_id s) f')).
Proof.
  destruct s as [l n f].
  unfold create_user_exercise, does_user_exercise_exist, get_user_exercise,
    try_except_SQLAlchemyError, update_user_exercise, query_filter_by,
    pop_fault, records_of, bind, ret, save.
  simpl.
  destruct f as [|[|] f]; simpl.
  - destruct (filter _ l) as [|r rest] eqn:Hf; simpl.
    + exists []. by left.
    + rewrite Hf. simpl. exists []. right. left. by exists r.
  - exists f. by left.
  - destruct (filter _ l) as [|r rest] eqn:Hf; simpl.
    + exists f. by left.
    + destruct f as [|[|] f]; simpl; rewrite ?Hf; simpl.
      * exists []. right. left. by exists r.
      * exists f. right. right. by split.
      * exists f. right. left. by exists r.
Qed.


(** X2. When the existence query fails, the error is swallowed and the
    create branch runs whatever the table holds: a new row of the user is
    appended, so a user who already had records has one more. *)
Theorem failed_existence_check_inserts_record (now : datetime)
    (user : User.t) (l : list UserExercise.t) (n : Z) (f : list bool) :
  let new := UserExercise.mk (Some n) (User.id user) now in
  create_user_exercise now user (mkSession l n (true :: f))
  = (Ok new, mkSession (l ++ [new]) (n + 1) f)
  ∧ records_of (User.id user) (mkSession (l ++ [new]) (n + 1) f)
    = records_of (User.id user) (mkSession l n (true :: f)) ++ [new].
Proof.
  split; [reflexivity|].
  unfold records_of. simpl.
  by rewrite filter_app, filter_cons, decide_True, filter_nil.
Qed.

(** X3. The lookup of [update_user_exercise] is not guarded: when it fails
    the storage error comes out and the table is as before, also when the
    function is reached through [create_user_exercise] after a successful
    existence check. *)
Theorem restart_lookup_failure_propagates (now : datetime) (user : User.t)
    (l : list UserExercise.t) (n : Z) (f : list bool) :
  records_of (User.id user) (mkSession l n f) ≠ [] →
  update_user_exercise now user (mkSession l n (true :: f))
  = (Raise SQLAlchemyError, mkSession l n f)
  ∧ create_user_exercise now user (mkSession l n (false :: true :: f))
    = (Raise SQLAlchemyError, mkSession l n f).
Proof.
  intros Hne. split; [reflexivity|].
  unfold create_user_exercise, does_user_exercise_exist, get_user_exercise,
    try_except_SQLAlchemyError, update_user_exercise, query_filter_by,
    pop_fault, records_of, bind in *.
  simpl in *. by destruct (filter _ l).
Qed.

Lemma restart_lookup_failure_propagates_witness :
  records_of 1 (mkSession [UserExercise.mk (Some 1) 1 5] 2 []) ≠ []
  ∧ create_user_exercise 9 (User.mk 1 "dana")
      (mkSession [UserExercise.mk (Some 1) 1 5] 2 [false; true])
    = (Raise SQLAlchemyError, mkSession [UserExercise.mk (Some 1) 1 5] 2 []).
Proof.
  assert (records_of 1 (mkSession [UserExercise.mk (Some 1) 1 5] 2 []) ≠ [])
    as Hne by done.
  split; [exact Hne|].
  exact (proj2 (restart_lookup_failure_propagates 9 (User.mk 1 "dana")
                  [UserExercise.mk (Some 1) 1 5] 2 [] Hne)).
Defined.

(** X4. When its query succeeds, the existence check answers for the table
    as it is: it returns exactly the rows of the user, so it is truthy if
    and only if the user has a row, and it leaves the table alone. *)
Theorem does_user_exercise_exist_reflects_table (user_id : Z) (s : Session) :
  storage_ok s →
  ∃ found s',
    does_user_exercise_exist user_id s = (Ok found, s')
    ∧ rows s' = rows s
    ∧ next_id s' = next_id s
    ∧ (∀ r, r ∈ found ↔ r ∈ rows s ∧ UserExercise.user_id r = user_id)
    ∧ (truthy found = true
       ↔ ∃ r, r ∈ rows s ∧ UserExercise.user_id r = user_id).
Proof.
  intros Hok. do 2 eexists.
  split; [by apply does_user_exercise_exist_ok|].
  split; [done|]. split; [done|].
  assert (∀ r, r ∈ records_of user_id s
               ↔ r ∈ rows s ∧ UserExercise.user_id r = user_id) as Hmem.
  { intros r. unfold records_of. rewrite list_elem_of_filter. tauto. }
  split; [exact Hmem|].
  destruct (records_of user_id s) as [|r rest] eqn:Hrec; simpl.
  - split; [done|]. intros (r & Hr). apply Hmem in Hr.
    by apply elem_of_nil in Hr.
  - split; [|done]. intros _. exists r. apply Hmem. apply list_elem_of_here.
Qed.

Lemma does_user_exercise_exist_reflects_table_witness :
  storage_ok (mkSession [UserExercise.mk (Some 1) 1 5] 2 [])
  ∧ ∃ found s',
      does_user_exercise_exist 2
        (mkSession [UserExercise.mk (Some 1) 1 5] 2 []) = (Ok found, s')
      ∧ (truthy found = true
         ↔ ∃ r, r ∈ [UserExercise.mk (Some 1) 1 5]
                ∧ UserExercise.user_id r = 2).
Proof.
  assert (storage_ok (mkSession [UserExercise.mk (Some 1) 1 5] 2 []))
    as Hok by constructor.
  split; [exact Hok|].
  destruct (does_user_exercise_exist_reflects_table 2 _ Hok)
    as (found & s' & Hrun & _ & _ & _ & Hiff).
  exists found, s'. split; [exact Hrun|exact Hiff].
Defined.

(** X5. A restart rewrites one field of one row: the start date of the
    user's first record.  Further records of the same user keep their start
    dates, every row keeps its place, its id and its user, rows of other
    users are the same rows, and no row is added. *)
Theorem restart_touches_only_first_record (now : datetime) (user : User.t)
    (s : Session) (first : UserExercise.t) (others : list UserExercise.t) :
  storage_ok s →
  records_of (User.id user) s = first :: others →
  ∃ s',
    update_user_exercise now user s
    = (Ok (UserExercise.set_start_date now first), s')
    ∧ records_of (User.id user) s'
      = UserExercise.set_start_date now first :: others
    ∧ length (rows s') = length (rows s)
    ∧ next_id s' = next_id s
    ∧ ∀ (i : nat) (x : UserExercise.t), rows s !! i = Some x →
        ∃ x', rows s' !! i = Some x'
          ∧ UserExercise.id x' = UserExercise.id x
          ∧ UserExercise.user_id x' = UserExercise.user_id x
          ∧ (UserExercise.user_id x ≠ User.id user → x' = x).
Proof.
  intros Hok Hrec. eexists.
  split.
  { apply update_user_exercise_present; [done|]. by rewrite Hrec. }
  simpl. split.
  { unfold records_of in *. simpl.
    by rewrite filter_assign_start_date, decide_True, Hrec. }
  split; [apply length_assign_start_date|]. split; [done|].
  intros i x Hx. by apply lookup_assign_start_date.
Qed.

Lemma restart_touches_only_first_record_witness :
  let s := mkSession [UserExercise.mk (Some 1) 1 5;
                      UserExercise.mk (Some 2) 2 6;
                      UserExercise.mk (Some 3) 1 7] 4 [] in
  storage_ok s
  ∧ ∃ s', update_user_exercise 9 (User.mk 1 "dana") s
          = (Ok (UserExercise.mk (Some 1) 1 9), s')
      ∧ records_of 1 s'
        = [UserExercise.mk (Some 1) 1 9; UserExercise.mk (Some 3) 1 7].
Proof.
  intros s.
  assert (storage_ok s) as Hok by constructor.
  split; [exact Hok|].
  destruct (restart_touches_only_first_record 9 (User.mk 1 "dana") s
              (UserExercise.mk (Some 1) 1 5) [UserExercise.mk (Some 3) 1 7]
              Hok eq_refl)
    as (s' & Hrun & Hrec & _).
  exists s'. split; [exact Hrun|exact Hrec].
Defined.

(** X6. Whatever happens in an invocation for one user, storage failures
    included, the records of every other user are what they were, no row
    disappears, at most one row is added, and the id counter does not go
    back. *)
Theorem create_user_exercise_frame (now : datetime) (user : User.t)
    (s : Session) :
  let s' := snd (create_user_exercise now user s) in
  (∀ other, other ≠ User.id user → records_of other s' = records_of other s)
  ∧ (length (rows s) ≤ length (rows s') ≤ S (length (rows s)))%nat
  ∧ next_id s ≤ next_id s' ≤ next_id s + 1.
Proof.
  destruct (create_user_exercise_cases now user s)
    as (f' & [Hnew|[(r & Hr & Hrun)|[Hne Hrun]]]); simpl in *.
  - rewrite Hnew. simpl. split; [|split; [rewrite length_app; simpl|]; lia].
    intros other Hne. unfold records_of. simpl.
    rewrite filter_app, filter_cons, decide_False by done.
    by rewrite filter_nil, app_nil_r.
  - rewrite Hrun. simpl.
    split; [|split; [rewrite length_assign_start_date|]; lia].
    intros other Hne. unfold records_of. simpl.
    by rewrite filter_assign_start_date, decide_False.
  - rewrite Hrun. simpl. split; [done|]. lia.
Qed.

Lemma invoke_all_storage_ok (calls : list (datetime * User.t)) (s : Session) :
  storage_ok s → storage_ok (invoke_all calls s).
Proof.
  revert s. induction calls as [|[now user] rest IH]; intros s Hok; [done|].
  simpl. apply IH.
  destruct (create_user_exercise_step now user s Hok)
    as (ue & s' & -> & Hok' & _). done.
Qed.

(** X7. However many invocations follow one another, for whichever users
    and in whichever order, a table with at most one record per user stays
    so as long as the storage does not fail, and every user invoked at
    least once ends with exactly one record. *)
Theorem invoke_all_one_record_per_user (calls : list (datetime * User.t))
    (s : Session) :
  storage_ok s → unique_per_user s →
  unique_per_user (invoke_all calls s)
  ∧ ∀ user_id, is_Some (last_reading user_id calls) →
      length (records_of user_id (invoke_all calls s)) = 1%nat.
Proof.
  revert s. induction calls as [|[now user] rest IH]; intros s Hok Huniq.
  { split; [done|]. intros uid [t Ht]. done. }
  simpl.
  destruct (create_user_exercise_step now user s Hok)
    as (ue & s1 & Hrun & Hok1 & _ & Hrec & Hframe).
  rewrite Hrun. simpl.
  assert (length (records_of (User.id user) s1) = 1%nat) as Hone.
  { rewrite Hrec. specialize (Huniq (User.id user)).
    destruct (records_of (User.id user) s) as [|r [|r' l]]; simpl in *;
      [done|done|lia]. }
  assert (unique_per_user s1) as Huniq1.
  { intros uid. destruct (decide (uid = User.id user)) as [->|Hne].
    - by rewrite Hone.
    - rewrite Hframe by done. apply Huniq. }
  destruct (IH s1 Hok1 Huniq1) as [Hu Hcount].
  split; [exact Hu|].
  intros uid Hsome.
  destruct (last_reading uid rest) as [t|] eqn:Hlast; [by apply Hcount|].
  destruct (decide (User.id user = uid)) as [<-|Hne];
    [|by destruct Hsome].
  clear Hsome Hcount.
  (* no later call is for this user: its one record is still the only one *)
  assert (∀ calls' s', last_reading (User.id user) calls' = None →
            storage_ok s' →
            records_of (User.id user) (invoke_all calls' s')
            = records_of (User.id user) s') as Hsame.
  { induction calls' as [|[now' user'] rest' IH']; intros s' Hl Hok'; [done|].
    simpl in *.
    destruct (last_reading (User.id user) rest'); [done|].
    destruct (decide (User.id user' = User.id user)) as [|Hne']; [done|].
    destruct (create_user_exercise_step now' user' s' Hok')
      as (ue' & s2 & Hrun' & Hok2 & _ & _ & Hframe').
    rewrite Hrun'. simpl. rewrite IH' by done. by apply Hframe'. }
  by rewrite Hsame.
Qed.

Lemma invoke_all_one_record_per_user_witness :
  let calls := [(5, User.mk 1 "dana"); (6, User.mk 2 "eli");
                (9, User.mk 1 "dana")] in
  storage_ok (mkSession [] 1 [])
  ∧ unique_per_user (mkSession [] 1 [])
  ∧ length (records_of 1 (invoke_all calls (mkSession [] 1 []))) = 1%nat.
Proof.
  intros calls.
  assert (storage_ok (mkSession [] 1 [])) as Hok by constructor.
  assert (unique_per_user (mkSession [] 1 [])) as Hu
    by (intros uid; simpl; lia).
  split; [exact Hok|]. split; [exact Hu|].
  destruct (invoke_all_one_record_per_user calls _ Hok Hu) as [_ Hc].
  apply Hc. by eexists.
Defined.

(** X8. After any sequence of invocations without storage failure, the
    start date a lookup of a user reads is the clock reading of the last
    call made for that user, and it is the former one for a user no call
    was made for. *)
Theorem invoke_all_start_date (calls : list (datetime * User.t))
    (s : Session) (user_id : Z) :
  storage_ok s →
  start_date_of user_id (invoke_all calls s)
  = match last_reading user_id calls with
    | Some t => Some t
    | None => start_date_of user_id s
    end.
Proof.
  revert s. induction calls as [|[now user] rest IH]; intros s Hok; [done|].
  simpl.
  destruct (create_user_exercise_step now user s Hok)
    as (ue & s1 & Hrun & Hok1 & Hdate & Hrec & Hframe).
  rewrite Hrun. simpl. rewrite (IH s1 Hok1).
  destruct (last_reading user_id rest) as [t|]; [done|].
  unfold start_date_of.
  destruct (decide (User.id user = user_id)) as [<-|Hne].
  - rewrite Hrec. destruct (records_of (User.id user) s); simpl; by rewrite ?Hdate.
  - by rewrite Hframe.
Qed.

Lemma invoke_all_start_date_witness :
  let calls := [(5, User.mk 1 "dana"); (6, User.mk 2 "eli");
                (9, User.mk 1 "dana")] in
  storage_ok (mkSession [] 1 [])
  ∧ start_date_of 1 (invoke_all calls (mkSession [] 1 [])) = Some 9
  ∧ start_date_of 2 (invoke_all calls (mkSession [] 1 [])) = Some 6.
Proof.
  intros calls.
  assert (storage_ok (mkSession [] 1 [])) as Hok by constructor.
  split; [exact Hok|].
  split.
  - exact (invoke_all_start_date calls (mkSession [] 1 []) 1 Hok).
  - reflexivity.
Defined.

End user_exercise_behaviour.

(** * Further properties of the notes router *)

Module notes_behaviour.
Import notes notes_spec.

Lemma read_note_eq (note_id : Z) (s : Session) :
  read_note note_id s
  = match lookup_note note_id s with
    | Some n => (Ok n, s)
    | None => (Raise (not_found note_id), s)
    end.
Proof.
  unfold read_note, internal_notes.view, bind.
  by destruct (lookup_note note_id s).
Qed.

Lemma lookup_note_Some (note_id : Z) (s : Session) (n : Note.t) :
  lookup_note note_id s = Some n →
  Note.id n = note_id ∧ n ∈ rows s ∧ note_id ∈ ids s.
Proof.
  unfold lookup_note, ids. intros H. apply head_Some_elem_of in H.
  apply list_elem_of_filter in H as [Hid Hin].
  split; [done|]. split; [done|]. subst. by apply list_elem_of_fmap_2.
Qed.

(** X9. Reading never changes the session, succeeds exactly for the ids in
    storage, and what it returns is a stored note of the requested id. *)
Theorem read_note_reads (note_id : Z) (s : Session) :
  snd (read_note note_id s) = s
  ∧ (note_id ∈ ids s ↔ ∃ n, read_note note_id s = (Ok n, s))
  ∧ ∀ n s', read_note note_id s = (Ok n, s') →
      Note.id n = note_id ∧ n ∈ rows s
      ∧ lookup_note note_id s = Some n.
Proof.
  rewrite read_note_eq. split; [by destruct (lookup_note note_id s)|].
  split.
  - split.
    + intros Hin. destruct (lookup_note_present note_id s Hin) as (n & -> & _).
      by exists n.
    + intros (n & Hn).
      destruct (lookup_note note_id s) as [m|] eqn:Hm; [|done].
      by apply (lookup_note_Some _ _ m).
  - intros n s' Hn.
    destruct (lookup_note note_id s) as [m|] eqn:Hm; [|done].
    simplify_eq. destruct (lookup_note_Some _ _ _ Hm) as (? & ? & _). done.
Qed.

(** X10. The pages that show one note hand the template whatever the lookup
    found and do not test it: for an id in storage it is the note
    [read_note] returns, and for an id that is not there the page is
    rendered with no note where [read_note] answers 404.  None of the
    rendering handlers changes the session, and the list page is given what
    [get_all_notes] returns. *)
Theorem pages_show_the_lookup (note_id : Z) (s : Session) :
  (∀ n, read_note note_id s = (Ok n, s) →
     view_note note_id s
     = (Ok (mkTemplateResponse "notes/note_view.html" (NoteData (Some n))), s)
     ∧ remove_note note_id s
       = (Ok (mkTemplateResponse "notes/note_delete.html"
                (NoteData (Some n))), s))
  ∧ (note_id ∉ ids s →
     read_note note_id s = (Raise (not_found note_id), s)
     ∧ view_note note_id s
       = (Ok (mkTemplateResponse "notes/note_view.html" (NoteData None)), s)
     ∧ remove_note note_id s
       = (Ok (mkTemplateResponse "notes/note_delete.html" (NoteData None)),
          s))
  ∧ (∀ l, get_all_notes s = (Ok l, s) →
     view_notes s
     = (Ok (mkTemplateResponse "notes/notes.html" (NotesData l)), s))
  ∧ create_note_form s
    = (Ok (mkTemplateResponse "notes/note.html" NoData), s).
Proof.
  rewrite read_note_eq.
  unfold view_note, remove_note, view_notes, create_note_form, get_all_notes,
    internal_notes.view, internal_notes.get_all, bind, ret.
  split; [|split; [|split; [|done]]].
  - intros n Hn. destruct (lookup_note note_id s); by simplify_eq.
  - intros Habs. by rewrite (lookup_note_absent _ _ Habs).
  - intros l Hl. by simplify_eq.
Qed.

Lemma pages_show_the_lookup_witness :
  (666 ∉ ids (mkSession [Note.mk 1 "something" "something else" 0 None] 2))
  ∧ view_note 666
      (mkSession [Note.mk 1 "something" "something else" 0 None] 2)
    = (Ok (mkTemplateResponse "notes/note_view.html" (NoteData None)),
       mkSession [Note.mk 1 "something" "something else" 0 None] 2).
Proof.
  assert (666 ∉ ids (mkSession [Note.mk 1 "something" "something else" 0
                                  None] 2)) as Habs.
  { unfold ids. simpl. apply not_elem_of_cons. split; [done|].
    apply not_elem_of_nil. }
  split; [exact Habs|].
  destruct (pages_show_the_lookup 666
              (mkSession [Note.mk 1 "something" "something else" 0 None] 2))
    as (_ & Hview & _).
  exact (proj1 (proj2 (Hview Habs))).
Defined.

Lemma overwritten_id (request : NoteSchema.t) (note_id : Z) (r : Note.t) :
  Note.id (overwritten request note_id r) = Note.id r.
Proof. unfold overwritten. by case_decide. Qed.

Lemma filter_overwritten (request : NoteSchema.t) (note_id k : Z)
    (l : list Note.t) :
  filter (λ n, Note.id n = k) (map (overwritten request note_id) l)
  = overwritten request note_id <$> filter (λ n, Note.id n = k) l.
Proof.
  induction l as [|r l IH]; [done|].
  simpl. rewrite !filter_cons, overwritten_id, IH.
  by destruct (decide (Note.id r = k)).
Qed.

Lemma ids_overwritten (request : NoteSchema.t) (note_id : Z)
    (l : list Note.t) :
  Note.id <$> map (overwritten request note_id) l = Note.id <$> l.
Proof.
  induction l as [|r l IH]; [done|].
  csimpl. by rewrite overwritten_id, IH.
Qed.

Lemma filter_deleted (note_id k : Z) (l : list Note.t) :
  filter (λ n, Note.id n = k) (filter (λ r, Note.id r ≠ note_id) l)
  = if decide (k = note_id) then [] else filter (λ n, Note.id n = k) l.
Proof.
  induction l as [|r l IH]; [by case_decide|].
  rewrite !filter_cons.
  destruct (decide (Note.id r ≠ note_id)) as [Hr|Hr].
  - rewrite filter_cons, IH.
    destruct (decide (k = note_id)) as [->|Hk].
    + by rewrite decide_False.
    + done.
  - rewrite IH. destruct (decide (k = note_id)) as [->|Hk]; [done|].
    rewrite decide_False; [done|]. intros Heq. apply Hr. congruence.
Qed.

Lemma update_note_eq (request : NoteSchema.t) (note_id : Z) (s : Session) :
  update_note request note_id s
  = match lookup_note note_id s with
    | None => (Raise (not_found note_id), s)
    | Some n =>
        (Ok (Note.overwrite request n),
         mkSession (map (overwritten request note_id) (rows s)) (next_id s))
    end.
Proof. reflexivity. Qed.

Lemma delete_note_eq (note_id : Z) (s : Session) :
  delete_note note_id s
  = match lookup_note note_id s with
    | None => (Raise (not_found note_id), s)
    | Some n =>
        (Ok n,
         mkSession (filter (λ r, Note.id r ≠ note_id) (rows s)) (next_id s))
    end.
Proof. reflexivity. Qed.

(** X11. Updating and then reading the same id gives the record the update
    returned, with the new title and description; the set of ids is as it
    was, and every other id reads the very note it read before. *)
Theorem update_then_read (request : NoteSchema.t) (note_id : Z)
    (s : Session) :
  note_id ∈ ids s →
  ∃ updated s',
    update_note request note_id s = (Ok updated, s')
    ∧ read_note note_id s' = (Ok updated, s')
    ∧ Note.title updated = NoteSchema.title request
    ∧ Note.description updated = NoteSchema.description request
    ∧ ids s' = ids s
    ∧ ∀ other, other ≠ note_id →
        fst (read_note other s') = fst (read_note other s).
Proof.
  intros Hin.
  destruct (lookup_note_present note_id s Hin) as (n & Hlook & Hid & _).
  do 2 eexists. rewrite update_note_eq, Hlook.
  split; [reflexivity|].
  assert (∀ k, lookup_note k
                 (mkSession (map (overwritten request note_id) (rows s))
                    (next_id s))
               = overwritten request note_id <$> lookup_note k s) as Hl.
  { intros k. unfold lookup_note. simpl. rewrite filter_overwritten.
    by destruct (filter _ (rows s)). }
  split.
  { rewrite read_note_eq, Hl, Hlook. simpl. unfold overwritten.
    by rewrite decide_True. }
  split; [done|]. split; [done|].
  split; [unfold ids; simpl; apply ids_overwritten|].
  intros other Hne. rewrite !read_note_eq, Hl.
  destruct (lookup_note other s) as [m|] eqn:Hm; simpl; [|done].
  unfold overwritten. rewrite decide_False; [done|].
  destruct (lookup_note_Some _ _ _ Hm) as (-> & _). done.
Qed.

Lemma update_then_read_witness :
  let s := mkSession [Note.mk 1 "a" "b" 10 None; Note.mk 2 "c" "d" 20 None] 3 in
  (2 ∈ ids s)
  ∧ ∃ updated s',
      update_note (NoteSchema.mk "someone" "someone else" None) 2 s
      = (Ok updated, s')
      ∧ read_note 2 s' = (Ok updated, s')
      ∧ Note.title updated = "someone".
Proof.
  intros s.
  assert (2 ∈ ids s) as Hin
    by apply list_elem_of_further, list_elem_of_here.
  split; [exact Hin|].
  destruct (update_then_read (NoteSchema.mk "someone" "someone else" None)
              2 s Hin) as (updated & s' & Hu & Hr & Ht & _).
  exists updated, s'. auto.
Defined.

(** X12. Deleting returns a stored note of the requested id and removes
    every row of that id: the id is gone, reading it or deleting it again
    answers 404, the listing is the former one without those rows, and
    every other id reads the very note it read before. *)
Theorem delete_then_read_not_found (note_id : Z) (s : Session) :
  note_id ∈ ids s →
  ∃ deleted s',
    delete_note note_id s = (Ok deleted, s')
    ∧ Note.id deleted = note_id
    ∧ deleted ∈ rows s
    ∧ (note_id ∉ ids s')
    ∧ read_note note_id s' = (Raise (not_found note_id), s')
    ∧ delete_note note_id s' = (Raise (not_found note_id), s')
    ∧ get_all_notes s'
      = (Ok (filter (λ r, Note.id r ≠ note_id) (rows s)), s')
    ∧ ∀ other, other ≠ note_id →
        fst (read_note other s') = fst (read_note other s).
Proof.
  intros Hin.
  destruct (lookup_note_present note_id s Hin) as (n & Hlook & Hid & Hn).
  do 2 eexists. rewrite delete_note_eq, Hlook.
  split; [reflexivity|]. split; [done|]. split; [done|].
  assert (∀ k, lookup_note k
                 (mkSession (filter (λ r, Note.id r ≠ note_id) (rows s))
                    (next_id s))
               = if decide (k = note_id) then None else lookup_note k s)
    as Hl.
  { intros k. unfold lookup_note. simpl. rewrite filter_deleted.
    by case_decide. }
  split.
  { unfold ids. simpl. intros Hmem.
    apply list_elem_of_fmap in Hmem as (r & -> & Hr).
    apply list_elem_of_filter in Hr as [Hr _]. done. }
  split; [by rewrite read_note_eq, Hl, decide_True|].
  split; [by rewrite delete_note_eq, Hl, decide_True|].
  split; [done|].
  intros other Hne. rewrite !read_note_eq, Hl, decide_False by done.
  by destruct (lookup_note other s).
Qed.

Lemma delete_then_read_not_found_witness :
  let s := mkSession [Note.mk 1 "a" "b" 10 None; Note.mk 2 "c" "d" 20 None] 3 in
  (1 ∈ ids s)
  ∧ ∃ deleted s',
      delete_note 1 s = (Ok deleted, s')
      ∧ get_all_notes s' = (Ok [Note.mk 2 "c" "d" 20 None], s')
      ∧ read_note 1 s' = (Raise (not_found 1), s').
Proof.
  intros s.
  assert (1 ∈ ids s) as Hin by apply list_elem_of_here.
  split; [exact Hin|].
  destruct (delete_then_read_not_found 1 s Hin)
    as (deleted & s' & Hd & _ & _ & _ & Hr & _ & Hall & _).
  exists deleted, s'. split; [exact Hd|]. split; [|exact Hr].
  rewrite Hall. do 2 f_equal.
Defined.


Section RouterBehaviour.
Variable get_current_user : Session → User.t.

Lemma create_new_note_eq (now : datetime) (request : NoteSchema.t)
    (s : Session) :
  create_new_note get_current_user now request s
  = internal_notes.create_note now
      (NoteSchema.set_creator (Some (get_current_user s)) request) s.
Proof.
  unfold create_new_note, NoteSchema.init, bind. by rewrite validate_dict.
Qed.


(** X15. In the form handlers the schema is built inside the handler: a form
    the schema refuses raises pydantic's own validation error, which the
    framework answers as a server error and not as 422, and it does so
    before the storage is touched, so nothing is created and, whatever the
    id, nothing is updated. *)
Theorem invalid_form_raises_before_storage (now : datetime)
    (form : gmap string Value) (note_id : Z) (s : Session) :
  ¬ NoteSchema.valid form →
  ∃ missing,
    create_note_by_form get_current_user now form s
    = (Raise (ValidationError missing), s)
    ∧ redirect_update_note form note_id s
      = (Raise (ValidationError missing), s)
    ∧ missing ≠ []
    ∧ status_of_exception (ValidationError missing)
      = HTTP_500_INTERNAL_SERVER_ERROR.
Proof.
  intros Hinv. destruct (validate_invalid form Hinv) as (missing & Hv & Hne).
  exists missing.
  unfold create_note_by_form, redirect_update_note, NoteSchema.init, bind.
  by rewrite Hv.
Qed.

(** X16. Each form handler leaves the session exactly as the JSON route of
    the same operation leaves it, for every input, and succeeds in the same
    cases: the two differ in what they answer, not in what they store. *)
Theorem form_variants_store_like_json (now : datetime)
    (form : gmap string Value) (note_id : Z) (s : Session) :
  snd (create_note_by_form get_current_user now form s)
  = snd (post_notes get_current_user now form s)
  ∧ snd (redirect_update_note form note_id s) = snd (put_notes note_id form s)
  ∧ snd (redirect_delete_note note_id s) = snd (delete_note note_id s)
  ∧ ((∃ r, fst (create_note_by_form get_current_user now form s) = Ok r)
     ↔ ∃ n, fst (post_notes get_current_user now form s) = Ok n)
  ∧ ((∃ r, fst (redirect_update_note form note_id s) = Ok r)
     ↔ ∃ n, fst (put_notes note_id form s) = Ok n)
  ∧ ((∃ r, fst (redirect_delete_note note_id s) = Ok r)
     ↔ ∃ n, fst (delete_note note_id s) = Ok n).
Proof.
  unfold create_note_by_form, post_notes, redirect_update_note, put_notes,
    redirect_delete_note, NoteSchema.init, NoteSchema.from_body, bind.
  rewrite delete_note_eq.
  destruct (NoteSchema.validate form) as [missing|request]; simpl.
  - destruct (lookup_note note_id s); simpl;
      repeat split; try done; intros [? ?]; by eauto.
  - rewrite create_new_note_eq, update_note_eq.
    unfold current_user, internal_notes.create_note. simpl.
    destruct (lookup_note note_id s); simpl;
      repeat split; try done; intros [? ?]; by eauto.
Qed.



(** X18. Ids keep identifying rows: updating and deleting, through the JSON
    route or through the form, keep the ids distinct and below the id
    counter, whether they succeed or raise. *)
Theorem mutations_keep_ids_well_formed (request : NoteSchema.t)
    (form : gmap string Value) (note_id : Z) (s : Session) :
  well_formed s →
  well_formed (snd (update_note request note_id s))
  ∧ well_formed (snd (delete_note note_id s))
  ∧ well_formed (snd (redirect_update_note form note_id s))
  ∧ well_formed (snd (redirect_delete_note note_id s)).
Proof.
  intros Hwf.
  assert (well_formed (snd (update_note request note_id s))) as Hupd.
  { rewrite update_note_eq. destruct (lookup_note note_id s); [|done].
    unfold well_formed, ids in *. simpl. by rewrite ids_overwritten. }
  assert (well_formed (snd (delete_note note_id s))) as Hdel.
  { rewrite delete_note_eq. destruct (lookup_note note_id s); [|done].
    destruct Hwf as [Hnd Hlt]. unfold well_formed, ids in *. simpl.
    assert ((Note.id <$> filter (λ r, Note.id r ≠ note_id) (rows s))
            `sublist_of` (Note.id <$> rows s)) as Hsub
      by apply fmap_sublist, sublist_filter.
    split; [by apply (sublist_NoDup _ _ Hnd)|].
    intros i Hi. apply Hlt. by apply (elem_of_sublist _ _ _ Hi Hsub). }
  split; [exact Hupd|]. split; [exact Hdel|].
  split.
  - unfold redirect_update_note, NoteSchema.init, bind.
    destruct (NoteSchema.validate form) as [missing|r]; simpl; [done|].
    rewrite update_note_eq. destruct (lookup_note note_id s); [|done].
    unfold well_formed, ids in *. simpl. by rewrite ids_overwritten.
  - unfold redirect_delete_note, bind. revert Hdel.
    rewrite delete_note_eq. by destruct (lookup_note note_id s).
Qed.

End RouterBehaviour.


Lemma invalid_form_raises_before_storage_witness :
  let form : gmap string Value := <["description" := VStr "bar"]> ∅ in
  let s := mkSession [Note.mk 1 "a" "b" 10 None] 2 in
  ¬ NoteSchema.valid form
  ∧ ∃ missing,
      redirect_update_note form 1 s = (Raise (ValidationError missing), s).
Proof.
  intros form s.
  assert (¬ NoteSchema.valid form) as Hinv by (intros [[t Ht] _]; done).
  split; [exact Hinv|].
  destruct (invalid_form_raises_before_storage (λ _, User.mk 1 "new_user")
              20 form 1 s Hinv) as (missing & _ & Hrun & _).
  exists missing. exact Hrun.
Defined.


Lemma mutations_keep_ids_well_formed_witness :
  let s := mkSession [Note.mk 1 "a" "b" 10 None] 2 in
  well_formed s ∧ well_formed (snd (delete_note 1 s)).
Proof.
  intros s.
  assert (well_formed s) as Hwf.
  { split.
    - apply NoDup_singleton.
    - intros i Hi. apply list_elem_of_singleton in Hi as ->. done. }
  split; [exact Hwf|].
  exact (proj1 (proj2 (mutations_keep_ids_well_formed
                         (NoteSchema.mk "x" "y" None) ∅ 1 s Hwf))).
Defined.

End notes_behaviour.
